(** * Sales dashboard (assignment_portofolio.py): filter, aggregation and
      prediction request, embedded as functions over lists of records.

    The script is a Streamlit page over a pandas dataframe.  A dataframe is
    a list of rows in index order, a grouped series is an association list
    in the order pandas yields it, and the sequence of [st.*] calls of one
    run of the script is a trace of events.

    Conventions of the embedding:
    - [Tanggal_Pesanan] is a pandas timestamp (the column is passed through
      [pd.to_datetime]): an integer count of nanoseconds since 1970-01-01;
    - money columns are float64 in pandas; they are rationals here, so sums
      are exact and rounding is left out;
    - every cell of a row is present (no missing values). *)

From Stdlib Require Import ZArith QArith List String Ascii Bool Lia.
From Stdlib Require Import Sorting.Sorted Sorting.Permutation.
Import ListNotations.

Local Open Scope string_scope.
Local Open Scope list_scope.
Local Open Scope Z_scope.

(** ** Calendar dates ([datetime.date]) and timestamps *)

Record date := mkDate { year : Z; month : Z; day : Z }.

Definition is_leap (y : Z) : bool :=
  (y mod 4 =? 0) && (negb (y mod 100 =? 0) || (y mod 400 =? 0)).

Definition DAYS_IN_MONTH : list Z :=
  [0; 31; 28; 31; 30; 31; 30; 31; 31; 30; 31; 30; 31].

Definition DAYS_BEFORE_MONTH : list Z :=
  [0; 0; 31; 59; 90; 120; 151; 181; 212; 243; 273; 304; 334].

Definition days_before_year (y : Z) : Z :=
  let y' := y - 1 in y' * 365 + y' / 4 - y' / 100 + y' / 400.

Definition days_before_month (y m : Z) : Z :=
  nth (Z.to_nat m) DAYS_BEFORE_MONTH 0
  + (if (2 <? m) && is_leap y then 1 else 0).

(** [date.toordinal()]: proleptic Gregorian ordinal, 0001-01-01 is day 1. *)
Definition toordinal (d : date) : Z :=
  days_before_year (year d) + days_before_month (year d) (month d) + day d.

(** [date.fromordinal(n)], the inverse walk over 400/100/4/1-year cycles. *)
Definition fromordinal (n0 : Z) : date :=
  let n := n0 - 1 in
  let n400 := n / 146097 in
  let n := n mod 146097 in
  let n100 := n / 36524 in
  let n := n mod 36524 in
  let n4 := n / 1461 in
  let n := n mod 1461 in
  let n1 := n / 365 in
  let n := n mod 365 in
  let y := n400 * 400 + 1 + n100 * 100 + n4 * 4 + n1 in
  if (n1 =? 4) || (n100 =? 4) then mkDate (y - 1) 12 31
  else
    let leapyear := (n1 =? 3) && (negb (n4 =? 24) || (n100 =? 3)) in
    let m := Z.shiftr (n + 50) 5 in
    let preceding :=
      nth (Z.to_nat m) DAYS_BEFORE_MONTH 0
      + (if (2 <? m) && leapyear then 1 else 0) in
    if n <? preceding then
      let m' := m - 1 in
      let preceding' :=
        preceding - (nth (Z.to_nat m') DAYS_IN_MONTH 0
                     + (if (m' =? 2) && leapyear then 1 else 0)) in
      mkDate y m' (n - preceding' + 1)
    else mkDate y m (n - preceding + 1).

Definition Timestamp := Z.

Definition NS_PER_DAY : Z := 86400 * 1000000000.

(** Ordinal of 1970-01-01. *)
Definition EPOCH_ORDINAL : Z := 719163.

(** [pd.to_datetime(d)] for a [date]: midnight of that day. *)
Definition to_datetime (d : date) : Timestamp :=
  (toordinal d - EPOCH_ORDINAL) * NS_PER_DAY.

(** Ordinal of the calendar day a timestamp falls on. *)
Definition ts_ordinal (t : Timestamp) : Z := t / NS_PER_DAY + EPOCH_ORDINAL.

(** [Timestamp.date()]. *)
Definition ts_date (t : Timestamp) : date := fromordinal (ts_ordinal t).

(** ** Sale records and the dataframe *)

Record SaleRecord := mkSale {
  OrderID : string;
  Tanggal_Pesanan : Timestamp;
  Wilayah : string;
  Kategori : string;
  Produk : string;
  Jumlah : Z;
  Harga_Satuan : Q;
  Diskon : Q;
  Metode_Pembayaran : string;
  Total_Penjualan : Q;
  Bulan : string
}.

Definition DataFrame := list SaleRecord.

(** [Series.unique().tolist()]: distinct values in order of appearance. *)
Fixpoint unique (l : list string) : list string :=
  match l with
  | [] => []
  | x :: t => x :: filter (fun y => negb (String.eqb x y)) (unique t)
  end.

(** [Series.isin(values)], cell by cell. *)
Definition isin (s : string) (values : list string) : bool :=
  existsb (String.eqb s) values.

(** ** Filter engine (lines 55-92) *)

(** Widget defaults of the date picker: [min().date()] and [max().date()]. *)
Definition ts_min (df : DataFrame) : Timestamp :=
  match map Tanggal_Pesanan df with
  | [] => 0
  | t :: ts => fold_left Z.min ts t
  end.

Definition ts_max (df : DataFrame) : Timestamp :=
  match map Tanggal_Pesanan df with
  | [] => 0
  | t :: ts => fold_left Z.max ts t
  end.

Definition min_date (df : DataFrame) : date := ts_date (ts_min df).
Definition max_date (df : DataFrame) : date := ts_date (ts_max df).

(** The boolean mask of lines 69-70. *)
Definition date_mask (start_date_filter end_date_filter : Timestamp)
    (r : SaleRecord) : bool :=
  (start_date_filter <=? Tanggal_Pesanan r)
  && (Tanggal_Pesanan r <=? end_date_filter).

(** Lines 66-73: the date filter is applied only to a two-element range. *)
Definition filter_date (df_sales : DataFrame) (date_range : list date)
    : DataFrame :=
  match date_range with
  | [d0; d1] => filter (date_mask (to_datetime d0) (to_datetime d1)) df_sales
  | _ => df_sales
  end.

Definition filter_regions (selected_regions : list string) (df : DataFrame)
    : DataFrame :=
  filter (fun r => isin (Wilayah r) selected_regions) df.

Definition filter_categories (selected_categories : list string)
    (df : DataFrame) : DataFrame :=
  filter (fun r => isin (Kategori r) selected_categories) df.

(** Lines 66-90: [filtered_df] of the Overview page. *)
Definition filtered_df (df_sales : DataFrame) (date_range : list date)
    (selected_regions selected_categories : list string) : DataFrame :=
  filter_categories selected_categories
    (filter_regions selected_regions (filter_date df_sales date_range)).

(** Options (and defaults) of the two multiselects. *)
Definition region_options (df_sales : DataFrame) : list string :=
  unique (map Wilayah df_sales).

Definition category_options (df_sales : DataFrame) : list string :=
  unique (map Kategori df_sales).

(** ** Aggregations (lines 109-112, 127-131, 161, 186, 215-243) *)

Definition sum_Q (l : list Q) : Q := fold_right Qplus 0%Q l.

Definition sum_Z (l : list Z) : Z := fold_right Z.add 0 l.

(** Line 109. *)
Definition total_sales (df : DataFrame) : Q := sum_Q (map Total_Penjualan df).

(** Line 110: [nunique()]. *)
Definition total_orders (df : DataFrame) : Z :=
  Z.of_nat (List.length (unique (map OrderID df))).

(** Python's [/]: a zero divisor is a fault. *)
Definition true_div (a : Q) (b : Z) : option Q :=
  if b =? 0 then None else Some (a / inject_Z b)%Q.

(** Line 111: [total_sales / total_orders if total_orders > 0 else 0]. *)
Definition avg_order_value (df : DataFrame) : option Q :=
  if 0 <? total_orders df then true_div (total_sales df) (total_orders df)
  else Some 0%Q.

(** Line 112. *)
Definition total_products_sold (df : DataFrame) : Z := sum_Z (map Jumlah df).

Definition Series := list (string * Q).

(** One row added to the running group sums; the groups are kept in
    ascending key order, as [groupby] (sort=True) delivers them. *)
Fixpoint upsert (k : string) (v : Q) (acc : Series) : Series :=
  match acc with
  | [] => [(k, v)]
  | (k', v') :: t =>
      match String.compare k k' with
      | Eq => (k', (v' + v)%Q) :: t
      | Lt => (k, v) :: acc
      | Gt => (k', v') :: upsert k v t
      end
  end.

(** [df.groupby(key)['Total_Penjualan'].sum()]. *)
Definition groupby_sum (key : SaleRecord -> string) (df : DataFrame) : Series :=
  fold_left (fun acc r => upsert (key r) (Total_Penjualan r) acc) df [].

(** Descending insertion that keeps an earlier row before later rows of the
    same value ([keep='first']). *)
Fixpoint insert_desc (x : string * Q) (l : Series) : Series :=
  match l with
  | [] => [x]
  | y :: t =>
      if Qle_bool (snd y) (snd x) then x :: l else y :: insert_desc x t
  end.

Definition sort_desc (s : Series) : Series := fold_right insert_desc [] s.

(** [Series.nlargest(n)]. *)
Definition nlargest (n : nat) (s : Series) : Series := firstn n (sort_desc s).

(** Line 161. *)
Definition top_products_sales (df : DataFrame) : Series :=
  nlargest 10 (groupby_sum Produk df).

(** Line 186, lines 215-219, lines 239-243. *)
Definition sales_by_category (df : DataFrame) : Series := groupby_sum Kategori df.
Definition sales_by_payment (df : DataFrame) : Series :=
  groupby_sum Metode_Pembayaran df.
Definition sales_by_region (df : DataFrame) : Series := groupby_sum Wilayah df.

(** Monthly periods ([to_period('M')]): months elapsed since 1970-01. *)
Definition Period := Z.

Definition to_period_M (t : Timestamp) : Period :=
  let d := ts_date t in (year d - 1970) * 12 + (month d - 1).

Definition digit (n : Z) : string :=
  String (ascii_of_nat (48 + Z.to_nat (n mod 10))) EmptyString.

Definition pad2 (n : Z) : string := digit (n / 10) ++ digit n.

Definition pad4 (n : Z) : string :=
  digit (n / 1000) ++ digit (n / 100) ++ digit (n / 10) ++ digit n.

(** [str] of a monthly period: [YYYY-MM]. *)
Definition period_str (p : Period) : string :=
  pad4 (1970 + p / 12) ++ "-" ++ pad2 (p mod 12 + 1).

Fixpoint insert_period (x : Period * Q) (l : list (Period * Q))
    : list (Period * Q) :=
  match l with
  | [] => [x]
  | y :: t => if fst x <=? fst y then x :: l else y :: insert_period x t
  end.

(** [sort_values('Bulan')] on the period column. *)
Definition sort_values_period (l : list (Period * Q)) : list (Period * Q) :=
  fold_right insert_period [] l.

Fixpoint traverse {A B : Type} (f : A -> option B) (l : list A)
    : option (list B) :=
  match l with
  | [] => Some []
  | x :: t =>
      match f x, traverse f t with
      | Some y, Some ys => Some (y :: ys)
      | _, _ => None
      end
  end.

(** ** Prediction request (lines 299-331) *)

Inductive Hari := Senin | Selasa | Rabu | Kamis | Jumat | Sabtu | Minggu.

(** Line 314. *)
Definition day_of_week_map (h : Hari) : Z :=
  match h with
  | Senin => 0 | Selasa => 1 | Rabu => 2 | Kamis => 3
  | Jumat => 4 | Sabtu => 5 | Minggu => 6
  end.

Inductive cell := CInt (z : Z) | CFloat (q : Q).

(** A small frame: column labels and rows of cells. *)
Record Frame := mkFrame { columns : list string; data : list (list cell) }.

(** [pd.DataFrame(rows, columns=cols)]: the labels are attached by
    position; a row whose width differs from the label count is refused. *)
Definition pd_DataFrame (rows : list (list cell)) (cols : list string)
    : string + Frame :=
  if forallb (fun r => Nat.eqb (List.length r) (List.length cols)) rows
  then inr (mkFrame cols rows)
  else inl "ValueError: columns passed do not match the passed data".

(** The cell of row [i] found under a column label. *)
Fixpoint lookup_label (name : string) (cols : list string) (vals : list cell)
    : option cell :=
  match cols, vals with
  | c :: cs, v :: vs =>
      if String.eqb name c then Some v else lookup_label name cs vs
  | _, _ => None
  end.

Definition frame_get (f : Frame) (i : nat) (name : string) : option cell :=
  match nth_error (data f) i with
  | Some r => lookup_label name (columns f) r
  | None => None
  end.

Inductive Page := Overview_Dashboard | Prediksi_Penjualan.

(** The state of the widgets at one run of the script. *)
Record Widgets := mkWidgets {
  pilihan_halaman : Page;
  date_range : list date;
  selected_regions : list string;
  selected_categories : list string;
  num_rows_to_display : nat;
  target_date : date;
  avg_quantity : Q;
  avg_unit_price : Q;
  avg_discount : Q;
  day_of_week : Hari;
  hour_of_day : Z;
  button : bool
}.

(** Lines 324-331. *)
Definition input_for_prediction (model_features : list string) (w : Widgets)
    : string + Frame :=
  let target_date_ordinal := toordinal (target_date w) in
  let day_of_week_encoded := day_of_week_map (day_of_week w) in
  pd_DataFrame
    [[ CInt target_date_ordinal;
       CFloat (avg_quantity w);
       CFloat (avg_unit_price w);
       CFloat (avg_discount w);
       CInt day_of_week_encoded;
       CInt (hour_of_day w) ]]
    model_features.

(** ** One run of the script as a trace of Streamlit calls

    Static texts are kept without their emoji. *)

Inductive text_kind :=
  Title | Markdown | Header | Subheader | Write | Caption | Info
| SidebarHeader | SidebarMarkdown.

Inductive event :=
| st_text (kind : text_kind) (body : string)
| st_warning (body : string)
| st_error (body : string)
| st_success (value : Q)
| st_metric (label : string) (value : Q)
| st_plotly_chart (chart : string) (table : Series)
| st_dataframe (rows : DataFrame)
| st_describe (rows : DataFrame)
| st_write_frame (f : Frame)
| call_predict (f : Frame).

(** How a piece of the script ends: it falls through with a value, it calls
    [st.stop()], or an exception leaves it. *)
Inductive outcome (A : Type) :=
| Ret (a : A)
| Stop
| Raise (e : string).

Arguments Ret {A} a.
Arguments Stop {A}.
Arguments Raise {A} e.

Definition Script (A : Type) : Type := list event * outcome A.

Definition ret {A : Type} (a : A) : Script A := ([], Ret a).

Definition bind {A B : Type} (m : Script A) (f : A -> Script B) : Script B :=
  match m with
  | (l, Ret a) => let (l', o) := f a in (l ++ l', o)
  | (l, Stop) => (l, Stop)
  | (l, Raise e) => (l, Raise e)
  end.

Definition emit (ev : event) : Script unit := ([ev], Ret tt).

Definition st_stop {A : Type} : Script A := ([], Stop).

Definition raise {A : Type} (e : string) : Script A := ([], Raise e).

(** [try: m except Exception as e: handler e]. *)
Definition try_except {A : Type} (m : Script A) (handler : string -> Script A)
    : Script A :=
  match m with
  | (l, Raise e) => let (l', o) := handler e in (l ++ l', o)
  | other => other
  end.

Definition lift_result {A : Type} (r : string + A) : Script A :=
  match r with
  | inl e => raise e
  | inr a => ret a
  end.

Declare Scope script_scope.
Delimit Scope script_scope with script.
Notation "x <- m ;; k" := (bind m (fun x => k))
  (at level 61, m at next level, right associativity) : script_scope.
Notation "m ;; k" := (bind m (fun _ => k))
  (at level 61, right associativity) : script_scope.

Definition trace {A : Type} (s : Script A) : list event := fst s.
Definition result {A : Type} (s : Script A) : outcome A := snd s.

Definition EMPTY_WARNING : string :=
  "Tidak ada data yang tersedia berdasarkan filter yang Anda pilih. Silakan sesuaikan filter.".

Definition prediction_error_text (e : string) : string :=
  "Terjadi kesalahan saat melakukan prediksi: " ++ e
  ++ ". Pastikan semua input valid.".

(** The note under a prediction (its two lines joined). *)
Definition PREDICTION_NOTE : string :=
  "*Catatan: Model ini adalah demonstrasi sederhana menggunakan Regresi Linear dan data dummy. Prediksi aktual membutuhkan model yang lebih kompleks, data historis yang memadai, dan fitur yang lebih relevan.*".

(** [arr[0]] on the array returned by the estimator. *)
Definition index0 (arr : list Q) : string + Q :=
  match arr with
  | v :: _ => inr v
  | [] => inl "IndexError: index 0 is out of bounds for axis 0 with size 0"
  end.

(** Chart and metric events are what the page renders from [filtered_df]. *)
Definition is_rendering (ev : event) : bool :=
  match ev with
  | st_metric _ _ | st_plotly_chart _ _ | st_dataframe _ | st_describe _ => true
  | _ => false
  end.

Definition is_error (ev : event) : bool :=
  match ev with st_error _ => true | _ => false end.

Definition is_warning (ev : event) : bool :=
  match ev with st_warning _ => true | _ => false end.

Definition is_call_predict (ev : event) : bool :=
  match ev with call_predict _ => true | _ => false end.

Section Dashboard.

(** The loaded collaborators: the parser behind [pd.to_datetime] on month
    labels ([None]: the label is refused and the call raises), the pickled
    estimator ([inl]: [predict] raises with that message) and its feature
    names. *)
Variable str_to_datetime : string -> option Timestamp.
Variable predict : Frame -> string + list Q.
Variable model_features : list string.

(** Lines 127-131. *)
Definition sales_by_month (df : DataFrame) : option Series :=
  let grouped := groupby_sum Bulan df in
  match traverse str_to_datetime (map fst grouped) with
  | None => None
  | Some stamps =>
      let periods := map to_period_M stamps in
      let sorted := sort_values_period (combine periods (map snd grouped)) in
      Some (map (fun pv => (period_str (fst pv), snd pv)) sorted)
  end.

Local Open Scope script_scope.

(** Lines 38-49. *)
Definition page_head : Script unit :=
  emit (st_text Title "Dashboard Analisis Penjualan Toko Online") ;;
  emit (st_text Markdown
    "Dashboard interaktif ini menyediakan gambaran umum performa penjualan, tren, dan distribusi berdasarkan berbagai dimensi, **serta fitur prediksi sederhana**.") ;;
  emit (st_text Markdown "---") ;;
  emit (st_text SidebarHeader "Pengaturan & Navigasi").

(** Lines 52-92. *)
Definition select_data (df_sales : DataFrame) (w : Widgets)
    : Script DataFrame :=
  match pilihan_halaman w with
  | Overview_Dashboard =>
      emit (st_text SidebarMarkdown "### Filter Data Dashboard") ;;
      ret (filtered_df df_sales (date_range w)
             (selected_regions w) (selected_categories w))
  | Prediksi_Penjualan => ret df_sales
  end.

(** Lines 96-98. *)
Definition empty_guard (w : Widgets) (filtered : DataFrame) : Script unit :=
  match pilihan_halaman w, filtered with
  | Overview_Dashboard, [] => emit (st_warning EMPTY_WARNING) ;; st_stop
  | _, _ => ret tt
  end.

(** Lines 103-285. *)
Definition overview_page (w : Widgets) (filtered : DataFrame)
    : Script unit :=
  emit (st_text Subheader "Ringkasan Performa Penjualan") ;;
  avg <- match avg_order_value filtered with
         | Some v => ret v
         | None => raise "ZeroDivisionError: division by zero"
         end ;;
  emit (st_metric "Total Penjualan" (total_sales filtered)) ;;
  emit (st_metric "Jumlah Pesanan" (inject_Z (total_orders filtered))) ;;
  emit (st_metric "Rata-rata Nilai Pesanan" avg) ;;
  emit (st_metric "Jumlah Produk Terjual"
          (inject_Z (total_products_sold filtered))) ;;
  emit (st_text Markdown "---") ;;
  emit (st_text Subheader "Tren Penjualan Bulanan") ;;
  monthly <- match sales_by_month filtered with
             | Some t => ret t
             | None => raise "ValueError: month label does not parse"
             end ;;
  emit (st_plotly_chart "Total Penjualan per Bulan" monthly) ;;
  emit (st_text Markdown "---") ;;
  emit (st_text Subheader "Top Produk & Distribusi Penjualan") ;;
  emit (st_text Write
          "#### Top 10 Produk Terlaris (Berdasarkan Total Penjualan)") ;;
  emit (st_plotly_chart "Top 10 Produk Berdasarkan Total Penjualan"
          (top_products_sales filtered)) ;;
  emit (st_text Write "#### Distribusi Penjualan per Kategori") ;;
  emit (st_plotly_chart "Proporsi Penjualan per Kategori"
          (sales_by_category filtered)) ;;
  emit (st_text Markdown "---") ;;
  emit (st_text Subheader "Performa Penjualan Lebih Detail") ;;
  emit (st_text Write "#### Penjualan Berdasarkan Metode Pembayaran") ;;
  emit (st_plotly_chart "Total Penjualan per Metode Pembayaran"
          (sales_by_payment filtered)) ;;
  emit (st_text Write "#### Penjualan Berdasarkan Wilayah") ;;
  emit (st_plotly_chart "Total Penjualan per Wilayah"
          (sales_by_region filtered)) ;;
  emit (st_text Markdown "---") ;;
  emit (st_text Subheader "Eksplorasi Data Mentah") ;;
  emit (st_text Write
          "Berikut adalah sebagian kecil dari data transaksi yang digunakan untuk dashboard ini.") ;;
  emit (st_dataframe (firstn (num_rows_to_display w) filtered)) ;;
  emit (st_text Write "Statistik Deskriptif:") ;;
  emit (st_describe filtered).

(** Lines 333-349: the guarded part of the prediction. *)
Definition predict_and_show (frame : Frame) : Script unit :=
  try_except
    (emit (call_predict frame) ;;
     arr <- lift_result (predict frame) ;;
     predicted_sales_value <- lift_result (index0 arr) ;;
     emit (st_success predicted_sales_value) ;;
     emit (st_text Info
             PREDICTION_NOTE) ;;
     emit (st_text Markdown "---") ;;
     emit (st_text Subheader "Fitur yang Digunakan untuk Prediksi:") ;;
     emit (st_write_frame frame))
    (fun e => emit (st_error (prediction_error_text e))).

(** Lines 288-349. *)
Definition prediction_page (w : Widgets) : Script unit :=
  emit (st_text Header "Prediksi Penjualan Sederhana") ;;
  emit (st_text Write
          "Gunakan bagian ini untuk memprediksi potensi total penjualan berdasarkan parameter yang dipilih. Model ini menggunakan **Regresi Linear** sederhana.") ;;
  emit (st_text Subheader "Input Parameter Prediksi") ;;
  emit (st_text Markdown "---") ;;
  if button w then
    frame <- lift_result (input_for_prediction model_features w) ;;
    predict_and_show frame
  else ret tt.

(** Lines 352-353. *)
Definition page_foot : Script unit :=
  emit (st_text Markdown "---") ;;
  emit (st_text Caption
          "Dashboard ini dibuat dengan oleh Peserta Bootcamp DSA Dibimbing Batch 32B ").

(** The whole script. *)
Definition script_run (df_sales : DataFrame) (w : Widgets) : Script unit :=
  page_head ;;
  filtered <- select_data df_sales w ;;
  empty_guard w filtered ;;
  match pilihan_halaman w with
  | Overview_Dashboard => overview_page w filtered
  | Prediksi_Penjualan => prediction_page w
  end ;;
  page_foot.

End Dashboard.

(** ** Sample data *)

Definition HOUR_NS : Z := 3600 * 1000000000.

(** An order placed on 2024-01-31 at 14:00. *)
Definition afternoon_order : SaleRecord :=
  mkSale "ORD-1" (to_datetime (mkDate 2024 1 31) + 14 * HOUR_NS)
         "Jakarta" "Elektronik" "Laptop" 1 100 0 "Transfer" 100 "2024-01".

(** Three date-only orders, months out of order. *)
Definition sample_sales : DataFrame :=
  [ mkSale "ORD-1" (to_datetime (mkDate 2024 3 5))
           "Jakarta" "Elektronik" "Laptop" 1 100 0 "Transfer" 100 "2024-03";
    mkSale "ORD-2" (to_datetime (mkDate 2023 11 20))
           "Bandung" "Pakaian" "Kemeja" 2 40 (1 # 10) "Tunai" 72 "2023-11";
    mkSale "ORD-2" (to_datetime (mkDate 2024 1 9))
           "Jakarta" "Pakaian" "Celana" 1 50 0 "Tunai" 50 "2024-01" ].

Definition sample_widgets : Widgets :=
  mkWidgets Overview_Dashboard [mkDate 2023 11 20] ["Jakarta"] ["Pakaian"] 50%nat
            (mkDate 2024 6 10) 2 100 (1 # 10) Senin 14 true.

(** An order given away for free. *)
Definition free_order : SaleRecord :=
  mkSale "ORD-7" (to_datetime (mkDate 2024 2 1))
         "Jakarta" "Aksesoris" "Stiker" 1 0 0 "Tunai" 0 "2024-02".

(** ** Reading the monthly table *)

(** The month a label stands for under a given parser. *)
Definition period_of_label (parse : string -> option Timestamp)
    (label : string) : Period :=
  match parse label with
  | Some t => to_period_M t
  | None => 0
  end.

Definition month_rows (parse : string -> option Timestamp) (s : Series)
    : list (Period * Q) :=
  map (fun kv => (period_of_label parse (fst kv), snd kv)) s.

Definition render_rows (rows : list (Period * Q)) : Series :=
  map (fun pv => (period_str (fst pv), snd pv)) rows.

(** A parser for the two label shapes [YYYY-MM] and [MM/YYYY], enough to
    run the monthly table on sample data. *)
Fixpoint digits_to_Z (acc : Z) (s : string) : option Z :=
  match s with
  | EmptyString => Some acc
  | String c t =>
      let n := Z.of_nat (nat_of_ascii c) in
      if (48 <=? n) && (n <=? 57) then digits_to_Z (acc * 10 + (n - 48)) t
      else None
  end.

Definition first_of_month (y m : option Z) : option Timestamp :=
  match y, m with
  | Some y', Some m' =>
      if (1 <=? m') && (m' <=? 12) then Some (to_datetime (mkDate y' m' 1))
      else None
  | _, _ => None
  end.

Definition parse_month_label (s : string) : option Timestamp :=
  if (String.length s =? 7)%nat then
    if String.eqb (substring 4 1 s) "-" then
      first_of_month (digits_to_Z 0 (substring 0 4 s))
                     (digits_to_Z 0 (substring 5 2 s))
    else if String.eqb (substring 2 1 s) "/" then
      first_of_month (digits_to_Z 0 (substring 3 4 s))
                     (digits_to_Z 0 (substring 0 2 s))
    else None
  else None.

(** The sample orders with labels written month first. *)
Definition sample_sales_month_first : DataFrame :=
  [ mkSale "ORD-1" (to_datetime (mkDate 2024 3 5))
           "Jakarta" "Elektronik" "Laptop" 1 100 0 "Transfer" 100 "03/2024";
    mkSale "ORD-2" (to_datetime (mkDate 2023 11 20))
           "Bandung" "Pakaian" "Kemeja" 2 40 (1 # 10) "Tunai" 72 "11/2023";
    mkSale "ORD-3" (to_datetime (mkDate 2024 1 9))
           "Jakarta" "Pakaian" "Celana" 1 50 0 "Tunai" 50 "01/2024";
    mkSale "ORD-4" (to_datetime (mkDate 2024 1 30))
           "Jakarta" "Pakaian" "Celana" 1 50 0 "Tunai" 50 "01/2024" ].

(** ** Reading the product table *)

Definition key_lt (a b : string) : Prop := String.compare a b = Lt.



(** What a series holds under key [k]. *)
Definition stored (k : string) (s : Series) : Q :=
  sum_Q (map snd (filter (fun kv => String.eqb (fst kv) k) s)).



(** Twelve products sold for 1 to 12, in no particular order. *)
Definition twelve_products : DataFrame :=
  map (fun pa : string * Q =>
         mkSale "ORD-1" (to_datetime (mkDate 2024 1 2)) "Jakarta" "Pakaian"
                (fst pa) 1 1 0 "Tunai" (snd pa) "2024-01")
      [ ("Zebra", 5%Q); ("Apel", 5%Q); ("C", 3%Q); ("D", 12%Q); ("E", 7%Q);
        ("F", 1%Q); ("G", 9%Q); ("H", 2%Q); ("I", 4%Q); ("J", 6%Q);
        ("K", 8%Q); ("L", 10%Q); ("Apel", 0%Q) ].

(** ** Reading a run of the prediction page *)

(** What the script shows before the selected page is rendered. *)
Definition head_events : list event := trace page_head.

Definition foot_events : list event := trace page_foot.

(** Texts of the prediction page above the button. *)
Definition prediction_form_events : list event :=
  [ st_text Header "Prediksi Penjualan Sederhana";
    st_text Write
      "Gunakan bagian ini untuk memprediksi potensi total penjualan berdasarkan parameter yang dipilih. Model ini menggunakan **Regresi Linear** sederhana.";
    st_text Subheader "Input Parameter Prediksi";
    st_text Markdown "---" ].


(** The feature names and the inputs of the worked prediction. *)
Definition six_features : list string := ["d"; "q"; "p"; "disc"; "wd"; "hr"].


Definition prediction_widgets : Widgets :=
  mkWidgets Prediksi_Penjualan [] [] [] 50%nat
            (mkDate 2024 6 10) 2 100 (1 # 10) Senin 14 true.

(** An estimator that answers the unit price times the quantity, and one
    that always fails. *)
Definition price_times_quantity (f : Frame) : string + list Q :=
  match data f with
  | [[_; CFloat q; CFloat p; _; _; _]] => inr [(q * p)%Q]
  | _ => inl "ValueError: unexpected input"
  end.

Definition broken_estimator (f : Frame) : string + list Q :=
  inl "ValueError: X has 6 features, but LinearRegression is expecting 5 features as input.".

Definition no_month_parser (s : string) : option Timestamp := None.


(** The same six names with the first two exchanged. *)
Definition swapped_features : list string := ["q"; "d"; "p"; "disc"; "wd"; "hr"].


(** ** Reading the filter as one pass *)

(** The date condition of lines 66-73 on one row. *)
Definition in_date_range (date_range : list date) (r : SaleRecord) : bool :=
  match date_range with
  | [d0; d1] => date_mask (to_datetime d0) (to_datetime d1) r
  | _ => true
  end.

(** The three conditions of lines 66-90 on one row. *)
Definition row_selected (date_range : list date)
    (selected_regions selected_categories : list string) (r : SaleRecord)
    : bool :=
  in_date_range date_range r
  && isin (Wilayah r) selected_regions
  && isin (Kategori r) selected_categories.

(** The cells of lines 325-330, in the order they are written. *)
Definition positional_row (w : Widgets) : list cell :=
  [ CInt (toordinal (target_date w));
    CFloat (avg_quantity w);
    CFloat (avg_unit_price w);
    CFloat (avg_discount w);
    CInt (day_of_week_map (day_of_week w));
    CInt (hour_of_day w) ].

(** What the Overview page draws from a non-empty filtered frame whose
    monthly table is [monthly]. *)
Definition overview_metrics (filtered : DataFrame) : list event :=
  [ st_metric "Total Penjualan" (total_sales filtered);
    st_metric "Jumlah Pesanan" (inject_Z (total_orders filtered));
    st_metric "Rata-rata Nilai Pesanan"
      (total_sales filtered / inject_Z (total_orders filtered))%Q;
    st_metric "Jumlah Produk Terjual"
      (inject_Z (total_products_sold filtered)) ].

Definition overview_charts (w : Widgets) (filtered : DataFrame)
    (monthly : Series) : list event :=
  [ st_plotly_chart "Total Penjualan per Bulan" monthly;
    st_plotly_chart "Top 10 Produk Berdasarkan Total Penjualan"
      (top_products_sales filtered);
    st_plotly_chart "Proporsi Penjualan per Kategori"
      (sales_by_category filtered);
    st_plotly_chart "Total Penjualan per Metode Pembayaran"
      (sales_by_payment filtered);
    st_plotly_chart "Total Penjualan per Wilayah" (sales_by_region filtered);
    st_dataframe (firstn (num_rows_to_display w) filtered);
    st_describe filtered ].

Definition is_caption (ev : event) : bool :=
  match ev with st_text Caption _ => true | _ => false end.

(** Two labels of one month, written in the two shapes. *)
Definition mixed_label_sales : DataFrame :=
  [ mkSale "ORD-1" (to_datetime (mkDate 2024 1 5))
           "Jakarta" "Elektronik" "Laptop" 1 100 0 "Transfer" 100 "2024-01";
    mkSale "ORD-2" (to_datetime (mkDate 2024 1 20))
           "Bandung" "Pakaian" "Kemeja" 2 40 (1 # 10) "Tunai" 72 "01/2024" ].

(** The Overview page over the whole span of the sample orders. *)
Definition all_regions_widgets : Widgets :=
  mkWidgets Overview_Dashboard [mkDate 2023 11 20; mkDate 2024 3 5]
            ["Jakarta"; "Bandung"] ["Pakaian"; "Elektronik"] 50%nat
            (mkDate 2024 6 10) 2 100 (1 # 10) Senin 14 false.


(** * Properties *)

(** ** Membership helpers *)

Lemma isin_true_iff (s : string) (values : list string) :
  isin s values = true <-> In s values.
Proof.
  unfold isin. rewrite existsb_exists. split.
  - intros [y [Hy He]]. apply String.eqb_eq in He. now subst.
  - intros H. exists s. split; [assumption | apply String.eqb_refl].
Qed.

Lemma unique_complete (l : list string) (x : string) :
  In x l -> In x (unique l).
Proof.
  induction l as [|a t IH]; simpl; [tauto|].
  intros [->|Hin]; [now left|].
  destruct (String.eqb a x) eqn:E.
  - apply String.eqb_eq in E. now left.
  - right. apply filter_In. split; [auto | now rewrite E].
Qed.

Lemma unique_sound (l : list string) (x : string) :
  In x (unique l) -> In x l.
Proof.
  induction l as [|a t IH]; simpl; [tauto|].
  intros [->|Hin]; [now left|].
  apply filter_In in Hin. right. tauto.
Qed.

Lemma filter_all_true {A : Type} (f : A -> bool) (l : list A) :
  (forall x, In x l -> f x = true) -> filter f l = l.
Proof.
  induction l as [|a t IH]; simpl; intros H; [reflexivity|].
  rewrite (H a (or_introl eq_refl)). f_equal. apply IH. auto.
Qed.

Lemma filter_date_incl (df : DataFrame) (dr : list date) (r : SaleRecord) :
  In r (filter_date df dr) -> In r df.
Proof.
  unfold filter_date.
  destruct dr as [|d0 [|d1 [|d2 rest]]]; try tauto.
  intros H. apply filter_In in H. tauto.
Qed.

(** ** The date mask *)

Lemma NS_PER_DAY_pos : 0 < NS_PER_DAY.
Proof. reflexivity. Qed.

(** What the mask of lines 69-70 keeps: timestamps between the two
    midnights. *)
Lemma filtered_df_range (df : DataFrame) (a b : date)
    (rs cs : list string) (r : SaleRecord) :
  In r (filtered_df df [a; b] rs cs) <->
  In r df /\ to_datetime a <= Tanggal_Pesanan r <= to_datetime b
  /\ In (Wilayah r) rs /\ In (Kategori r) cs.
Proof.
  unfold filtered_df, filter_categories, filter_regions, filter_date, date_mask.
  rewrite !filter_In, !isin_true_iff, andb_true_iff, !Z.leb_le. tauto.
Qed.

(** The lower end of the mask is the start day itself. *)
Lemma start_midnight_le (a : date) (t : Timestamp) :
  to_datetime a <= t <-> toordinal a <= ts_ordinal t.
Proof.
  unfold to_datetime, ts_ordinal.
  pose proof NS_PER_DAY_pos as Hp.
  pose proof (Z.div_le_lower_bound t NS_PER_DAY (toordinal a - EPOCH_ORDINAL) Hp).
  pose proof (Z.mul_div_le t NS_PER_DAY Hp).
  split; intros H1.
  - assert (toordinal a - EPOCH_ORDINAL <= t / NS_PER_DAY) by (apply H; lia).
    lia.
  - assert (NS_PER_DAY * (toordinal a - EPOCH_ORDINAL)
            <= NS_PER_DAY * (t / NS_PER_DAY)) by (apply Z.mul_le_mono_nonneg_l; lia).
    lia.
Qed.

(** On a timestamp without a time of day the upper end is the end day. *)
Lemma end_midnight_ge (b : date) (t : Timestamp) :
  t mod NS_PER_DAY = 0 ->
  (t <= to_datetime b <-> ts_ordinal t <= toordinal b).
Proof.
  unfold to_datetime, ts_ordinal. intros Hm.
  pose proof NS_PER_DAY_pos as Hp.
  assert (Ht : t = NS_PER_DAY * (t / NS_PER_DAY)).
  { pose proof (Z.div_mod t NS_PER_DAY). lia. }
  split; intros H1.
  - assert (t / NS_PER_DAY <= toordinal b - EPOCH_ORDINAL); [|lia].
    apply Z.mul_le_mono_pos_l with (p := NS_PER_DAY); lia.
  - rewrite Ht.
    rewrite (Z.mul_comm (toordinal b - EPOCH_ORDINAL)).
    apply Z.mul_le_mono_nonneg_l; lia.
Qed.

(** On date-only data the filter keeps the closed day interval. *)
Lemma filtered_df_closed_interval_date_only (df : DataFrame) (a b : date)
    (rs cs : list string) (r : SaleRecord) :
  (forall x, In x df -> Tanggal_Pesanan x mod NS_PER_DAY = 0) ->
  (In r (filtered_df df [a; b] rs cs) <->
   In r df /\ toordinal a <= ts_ordinal (Tanggal_Pesanan r) <= toordinal b
   /\ In (Wilayah r) rs /\ In (Kategori r) cs).
Proof.
  intros Hmid. rewrite filtered_df_range. split.
  - intros (Hin & [Hlo Hhi] & Hr & Hc).
    repeat split; try assumption.
    + now apply start_midnight_le.
    + now apply end_midnight_ge; [apply Hmid|].
  - intros (Hin & [Hlo Hhi] & Hr & Hc).
    repeat split; try assumption.
    + now apply start_midnight_le.
    + now apply (end_midnight_ge b _ (Hmid r Hin)).
Qed.

(** ** Filter engine *)

(** C2: the filter is meant to keep exactly the records whose order date
    lies in the closed interval of the chosen range.  On an order that
    carries a time of day it does not: with the single order of 2024-01-31
    14:00 and the picker's own default range (the first and last day of the
    data, both 2024-01-31) and every region and category selected, the order
    date is inside the range and the filtered frame is empty. *)
Theorem filter_drops_order_on_end_day :
  let df := [afternoon_order] in
  let dr := [min_date df; max_date df] in
  dr = [mkDate 2024 1 31; mkDate 2024 1 31]
  /\ toordinal (mkDate 2024 1 31)
     <= ts_ordinal (Tanggal_Pesanan afternoon_order)
     <= toordinal (mkDate 2024 1 31)
  /\ filtered_df df dr (region_options df) (category_options df) = [].
Proof.
  vm_compute. split; [reflexivity|]. split; [split; discriminate | reflexivity].
Qed.




(** C7: with every region and every category of the dataset selected, the
    filter returns the rows kept by the date range alone, hence as many. *)
Theorem full_selection_is_identity (df : DataFrame) (dr : list date) :
  filtered_df df dr (region_options df) (category_options df)
  = filter_date df dr
  /\ List.length (filtered_df df dr (region_options df) (category_options df))
     = List.length (filter_date df dr).
Proof.
  assert (E : filtered_df df dr (region_options df) (category_options df)
              = filter_date df dr).
  { unfold filtered_df, filter_categories, filter_regions.
    rewrite (filter_all_true (fun r => isin (Wilayah r) (region_options df))).
    - apply filter_all_true. intros r Hr. apply isin_true_iff.
      apply unique_complete, in_map, (filter_date_incl df dr r Hr).
    - intros r Hr. apply isin_true_iff.
      apply unique_complete, in_map, (filter_date_incl df dr r Hr). }
  split; [exact E | now rewrite E].
Qed.

(** ** Summary metrics *)

Lemma total_orders_nonneg (df : DataFrame) : 0 <= total_orders df.
Proof. unfold total_orders. lia. Qed.

Lemma inject_Z_nonzero (n : Z) : n <> 0 -> ~ (inject_Z n == 0)%Q.
Proof.
  intros Hn H. unfold Qeq in H. simpl in H. lia.
Qed.

Lemma Qdiv_zero_iff (a b : Q) : ~ (b == 0)%Q -> ((a / b == 0)%Q <-> (a == 0)%Q).
Proof.
  intros Hb. split; intros H.
  - rewrite <- (Qmult_div_r a b Hb). rewrite H. ring.
  - rewrite H. unfold Qdiv. ring.
Qed.

(** C6, as the code has it: the average is always computed without a
    division by zero; it is 0 when there is no order and total_sales /
    order_count otherwise, so it is 0 exactly when there is no order or the
    sales sum to 0. *)
Theorem avg_order_value_guarded (df : DataFrame) :
  exists v : Q,
    avg_order_value df = Some v
    /\ (total_orders df = 0 -> v = 0%Q)
    /\ (0 < total_orders df ->
        v = (total_sales df / inject_Z (total_orders df))%Q)
    /\ ((v == 0)%Q <-> total_orders df = 0 \/ (total_sales df == 0)%Q).
Proof.
  pose proof (total_orders_nonneg df) as Hnn.
  unfold avg_order_value, true_div.
  destruct (0 <? total_orders df) eqn:Hpos.
  - apply Z.ltb_lt in Hpos.
    destruct (total_orders df =? 0) eqn:Hz.
    + apply Z.eqb_eq in Hz. lia.
    + exists (total_sales df / inject_Z (total_orders df))%Q.
      split; [reflexivity|]. split; [lia|]. split; [reflexivity|].
      rewrite Qdiv_zero_iff by (apply inject_Z_nonzero; lia).
      split; [now right | intros [H|H]; [lia | assumption]].
  - apply Z.ltb_ge in Hpos.
    exists 0%Q. split; [reflexivity|]. split; [reflexivity|].
    split; [lia|]. split; [intros _; left; lia | reflexivity].
Qed.

(** C6 as stated fails from right to left: one free order gives an average
    of 0 with an order count of 1. *)
Lemma zero_average_with_one_order :
  avg_order_value [free_order] = Some 0%Q /\ total_orders [free_order] = 1.
Proof. split; reflexivity. Qed.

(** ** Group-by sums *)




(** ** Monthly table *)

Lemma upsert_keys (k k0 : string) (v : Q) (acc : Series) :
  In k (map fst (upsert k0 v acc)) -> k = k0 \/ In k (map fst acc).
Proof.
  induction acc as [|[k' v'] t IH]; simpl.
  - intros [H|[]]. now left.
  - destruct (String.compare k0 k') eqn:E; simpl.
    + tauto.
    + intros [H|H]; [now left | now right].
    + intros [H|H]; [right; now left|].
      destruct (IH H); [now left | right; now right].
Qed.

Lemma fold_upsert_keys (key : SaleRecord -> string) (df : DataFrame)
    (acc : Series) (k : string) :
  In k (map fst
          (fold_left (fun a r => upsert (key r) (Total_Penjualan r) a) df acc)) ->
  In k (map fst acc) \/ exists r, In r df /\ key r = k.
Proof.
  revert acc. induction df as [|r t IH]; intros acc; simpl.
  - now left.
  - intros H. destruct (IH _ H) as [H1|[r' [Hr' Hk]]].
    + destruct (upsert_keys _ _ _ _ H1) as [->|H2].
      * right. exists r. auto.
      * now left.
    + right. exists r'. auto.
Qed.

Lemma groupby_sum_keys (key : SaleRecord -> string) (df : DataFrame)
    (k : string) :
  In k (map fst (groupby_sum key df)) -> exists r, In r df /\ key r = k.
Proof.
  intros H. destruct (fold_upsert_keys key df [] k H) as [[]|H']. exact H'.
Qed.

Lemma traverse_total {A B : Type} (f : A -> option B) (d : B) (l : list A) :
  (forall x, In x l -> f x <> None) ->
  traverse f l
  = Some (map (fun x => match f x with Some y => y | None => d end) l).
Proof.
  induction l as [|a t IH]; simpl; intros H; [reflexivity|].
  rewrite IH by auto.
  destruct (f a) eqn:E; [reflexivity|].
  exfalso. apply (H a); auto.
Qed.


Lemma combine_fst_snd {A B C : Type} (g : A -> C) (s : list (A * B)) :
  combine (map g (map fst s)) (map snd s)
  = map (fun kv => (g (fst kv), snd kv)) s.
Proof.
  induction s as [|[a b] t IH]; simpl; [reflexivity|]. now rewrite IH.
Qed.

Lemma insert_period_perm (x : Period * Q) (l : list (Period * Q)) :
  Permutation (insert_period x l) (x :: l).
Proof.
  induction l as [|y t IH]; simpl; [apply Permutation_refl|].
  destruct (fst x <=? fst y).
  - apply Permutation_refl.
  - eapply perm_trans; [apply perm_skip, IH | apply perm_swap].
Qed.

Lemma sort_values_period_perm (l : list (Period * Q)) :
  Permutation (sort_values_period l) l.
Proof.
  induction l as [|x t IH]; simpl; [constructor|].
  eapply perm_trans; [apply insert_period_perm | now apply perm_skip].
Qed.



Lemma sales_by_month_total (parse : string -> option Timestamp)
    (df : DataFrame) :
  (forall r, In r df -> parse (Bulan r) <> None) ->
  sales_by_month parse df
  = Some (render_rows
            (sort_values_period (month_rows parse (groupby_sum Bulan df)))).
Proof.
  intros Hp. unfold sales_by_month.
  assert (Hk : forall k, In k (map fst (groupby_sum Bulan df)) ->
                         parse k <> None).
  { intros k Hk. destruct (groupby_sum_keys _ _ _ Hk) as [r [Hr <-]]. auto. }
  rewrite (traverse_total parse 0 _ Hk), map_map.
  rewrite (map_ext_in _ (period_of_label parse)).
  - now rewrite combine_fst_snd.
  - intros k Hin. unfold period_of_label.
    destruct (parse k) eqn:E; [reflexivity|]. exfalso. now apply (Hk k).
Qed.



(** Labels written month first group in text order 01/2024, 03/2024,
    11/2023; the table comes out by month. *)
Example sales_by_month_sample :
  map fst (groupby_sum Bulan sample_sales_month_first)
  = ["01/2024"; "03/2024"; "11/2023"]
  /\ sales_by_month parse_month_label sample_sales_month_first
     = Some [("2023-11", 72%Q); ("2024-01", 100%Q); ("2024-03", 100%Q)].
Proof. split; reflexivity. Qed.

(** ** Every group-by sum keeps the total *)





(** ** Order of the group keys *)

Lemma ascii_compare_refl (a : ascii) : Ascii.compare a a = Eq.
Proof. unfold Ascii.compare. apply N.compare_refl. Qed.

Lemma ascii_compare_lt_trans (a b c : ascii) :
  Ascii.compare a b = Lt -> Ascii.compare b c = Lt -> Ascii.compare a c = Lt.
Proof.
  unfold Ascii.compare. rewrite !N.compare_lt_iff. lia.
Qed.

Lemma key_lt_trans (a b c : string) : key_lt a b -> key_lt b c -> key_lt a c.
Proof.
  unfold key_lt. revert b c.
  induction a as [|x a IH]; intros [|y b] [|z c]; simpl;
    try discriminate; try reflexivity.
  destruct (Ascii.compare x y) eqn:Exy; try discriminate;
    destruct (Ascii.compare y z) eqn:Eyz; try discriminate; intros H1 H2.
  - apply Ascii.compare_eq_iff in Exy, Eyz. subst.
    rewrite ascii_compare_refl. now apply (IH b c).
  - apply Ascii.compare_eq_iff in Exy. subst. now rewrite Eyz.
  - apply Ascii.compare_eq_iff in Eyz. subst. now rewrite Exy.
  - now rewrite (ascii_compare_lt_trans x y z).
Qed.

Lemma key_lt_irrefl (a : string) : ~ key_lt a a.
Proof.
  unfold key_lt. intros H.
  pose proof (String.compare_antisym a a) as Ha. rewrite H in Ha. discriminate.
Qed.

Lemma compare_gt_lt (a b : string) : String.compare a b = Gt -> key_lt b a.
Proof.
  unfold key_lt. intros H. rewrite String.compare_antisym, H. reflexivity.
Qed.

Lemma upsert_sorted (k : string) (v : Q) (acc : Series) :
  StronglySorted key_lt (map fst acc) ->
  StronglySorted key_lt (map fst (upsert k v acc)).
Proof.
  induction acc as [|[k' v'] t IH]; simpl; intros Hs.
  - repeat constructor.
  - inversion Hs as [|? ? Hs' Hall]; subst.
    destruct (String.compare k k') eqn:E; simpl.
    + assumption.
    + constructor; [assumption|]. constructor; [exact E|].
      eapply Forall_impl; [|exact Hall]. intros x Hx.
      now apply (key_lt_trans k k' x).
    + constructor; [now apply IH|].
      apply Forall_forall. intros x Hx.
      destruct (upsert_keys _ _ _ _ Hx) as [->|Hin].
      * now apply compare_gt_lt.
      * rewrite Forall_forall in Hall. now apply Hall.
Qed.

Lemma groupby_sum_sorted (key : SaleRecord -> string) (df : DataFrame) :
  StronglySorted key_lt (map fst (groupby_sum key df)).
Proof.
  unfold groupby_sum.
  assert (G : forall acc, StronglySorted key_lt (map fst acc) ->
    StronglySorted key_lt
      (map fst (fold_left
                  (fun a r => upsert (key r) (Total_Penjualan r) a) df acc))).
  { induction df as [|r t IH]; intros acc Hs; simpl; [assumption|].
    apply IH. now apply upsert_sorted. }
  apply G. constructor.
Qed.

(** ** What a group holds *)

Lemma stored_upsert (k k0 : string) (v : Q) (acc : Series) :
  (stored k (upsert k0 v acc)
   == (if String.eqb k0 k then v else 0) + stored k acc)%Q.
Proof.
  unfold stored. induction acc as [|[k' v'] t IH]; simpl.
  - destruct (String.eqb k0 k); simpl; ring.
  - destruct (String.compare k0 k') eqn:E; simpl.
    + apply String.compare_eq_iff in E. subst k'.
      destruct (String.eqb k0 k); simpl; ring.
    + destruct (String.eqb k0 k), (String.eqb k' k); simpl; ring.
    + destruct (String.eqb k' k); simpl; rewrite IH; ring.
Qed.

Lemma stored_groupby (key : SaleRecord -> string) (df : DataFrame)
    (k : string) :
  (stored k (groupby_sum key df)
   == sum_Q (map Total_Penjualan
               (filter (fun r => String.eqb (key r) k) df)))%Q.
Proof.
  unfold groupby_sum.
  assert (G : forall acc,
    (stored k (fold_left (fun a r => upsert (key r) (Total_Penjualan r) a)
                 df acc)
     == stored k acc
        + sum_Q (map Total_Penjualan
                   (filter (fun r => String.eqb (key r) k) df)))%Q).
  { induction df as [|r t IH]; intros acc; simpl.
    - ring.
    - rewrite IH, stored_upsert.
      destruct (String.eqb (key r) k); simpl; ring. }
  rewrite G. unfold stored. simpl. ring.
Qed.

Lemma stored_absent (k : string) (s : Series) :
  ~ In k (map fst s) -> stored k s = 0%Q.
Proof.
  unfold stored. induction s as [|[k' v'] t IH]; simpl; intros H.
  - reflexivity.
  - destruct (String.eqb k' k) eqn:E.
    + apply String.eqb_eq in E. tauto.
    + apply IH. tauto.
Qed.

Lemma stored_sorted_entry (k : string) (v : Q) (s : Series) :
  StronglySorted key_lt (map fst s) -> In (k, v) s -> (stored k s == v)%Q.
Proof.
  induction s as [|[k' v'] t IH]; simpl; intros Hs Hin; [tauto|].
  inversion Hs as [|? ? Hs' Hall]; subst.
  rewrite Forall_forall in Hall.
  destruct Hin as [E|Hin].
  - inversion E; subst. unfold stored. simpl. rewrite String.eqb_refl. simpl.
    fold (stored k t). rewrite stored_absent; [ring|].
    intros Hk. apply (key_lt_irrefl k). now apply Hall.
  - assert (Hne : String.eqb k' k = false).
    { apply String.eqb_neq. intros ->.
      apply (key_lt_irrefl k). apply Hall.
      change k with (fst (k, v)). now apply in_map. }
    unfold stored. simpl. rewrite Hne. now apply IH.
Qed.

(** Each row of a grouped table holds the sum of the rows of its key. *)
Lemma groupby_sum_entry (key : SaleRecord -> string) (df : DataFrame)
    (k : string) (v : Q) :
  In (k, v) (groupby_sum key df) ->
  (v == sum_Q (map Total_Penjualan
                 (filter (fun r => String.eqb (key r) k) df)))%Q.
Proof.
  intros Hin. rewrite <- stored_groupby.
  symmetry. apply stored_sorted_entry; [apply groupby_sum_sorted | assumption].
Qed.

(** ** The n largest rows *)



















(** Two products of total 5: Zebra is met first in the rows, Apel comes
    first in the table. *)
Example top_products_sales_sample :
  top_products_sales twelve_products
  = [ ("D", 12%Q); ("L", 10%Q); ("G", 9%Q); ("K", 8%Q); ("E", 7%Q);
      ("J", 6%Q); ("Apel", (5 + 0)%Q); ("Zebra", 5%Q); ("I", 4%Q);
      ("C", 3%Q) ].
Proof. vm_compute. reflexivity. Qed.


(** ** Prediction request *)

(** C1: with the feature names d, q, p, disc, wd, hr and the inputs
    2024-06-10, 2.0, 100.0, 0.1, Monday (0) and 14, the single assembled row
    is [ordinal(2024-06-10), 2.0, 100.0, 0.1, 0, 14] in that column order,
    each value standing under its own name, whatever the other widgets
    hold. *)
Theorem input_for_prediction_worked_row
    (page : Page) (dr : list date) (rs cs : list string) (n : nat)
    (pressed : bool) :
  let w := mkWidgets page dr rs cs n (mkDate 2024 6 10) 2 100 (1 # 10)
                     Senin 14 pressed in
  let ordinal := toordinal (mkDate 2024 6 10) in
  ordinal = 739047
  /\ exists frame,
       input_for_prediction six_features w = inr frame
       /\ columns frame = six_features
       /\ data frame = [[ CInt ordinal; CFloat 2; CFloat 100;
                          CFloat (1 # 10); CInt 0; CInt 14 ]]
       /\ frame_get frame 0 "d" = Some (CInt ordinal)
       /\ frame_get frame 0 "q" = Some (CFloat 2)
       /\ frame_get frame 0 "p" = Some (CFloat 100)
       /\ frame_get frame 0 "disc" = Some (CFloat (1 # 10))
       /\ frame_get frame 0 "wd" = Some (CInt 0)
       /\ frame_get frame 0 "hr" = Some (CInt 14).
Proof.
  intros w ordinal. split; [reflexivity|].
  eexists. split; [reflexivity|].
  repeat split.
Qed.

(** The values are laid down by position and the names attached to them
    afterwards: exchanging two names leaves the row as it was. *)
Example input_for_prediction_by_position :
  exists frame,
    input_for_prediction swapped_features prediction_widgets = inr frame
    /\ data frame = [[ CInt 739047; CFloat 2; CFloat 100;
                       CFloat (1 # 10); CInt 0; CInt 14 ]]
    /\ frame_get frame 0 "d" = Some (CFloat 2).
Proof. eexists. repeat split. Qed.

(** ** Empty result on the Overview page *)



(** With rows left the Overview page is rendered through to the foot: the
    warning is the mark of the empty result only. *)
Example overview_renders_when_rows_remain :
  result (script_run parse_month_label price_times_quantity six_features
                     sample_sales sample_widgets) = Ret tt
  /\ filter is_warning
       (trace (script_run parse_month_label price_times_quantity six_features
                          sample_sales sample_widgets)) = []
  /\ List.length
       (filter is_rendering
          (trace (script_run parse_month_label price_times_quantity
                             six_features sample_sales sample_widgets)))
     = 11%nat.
Proof. vm_compute. repeat split. Qed.

(** ** Prediction attempt *)

Lemma input_for_prediction_six (features : list string) (w : Widgets) :
  List.length features = 6%nat ->
  input_for_prediction features w
  = inr (mkFrame features
           [[ CInt (toordinal (target_date w));
              CFloat (avg_quantity w);
              CFloat (avg_unit_price w);
              CFloat (avg_discount w);
              CInt (day_of_week_map (day_of_week w));
              CInt (hour_of_day w) ]]).
Proof.
  intros H. unfold input_for_prediction, pd_DataFrame. simpl.
  now rewrite H.
Qed.




(** A failing estimator is answered by [st.error], not by [st.warning]. *)
Example estimator_failure_is_an_error_box :
  filter (fun ev => is_error ev || is_warning ev)
    (trace (script_run no_month_parser broken_estimator six_features
                       sample_sales prediction_widgets))
  = [st_error
       "Terjadi kesalahan saat melakukan prediksi: ValueError: X has 6 features, but LinearRegression is expecting 5 features as input.. Pastikan semua input valid."].
Proof. reflexivity. Qed.

(** * Further properties of the script *)

(** ** The multiselect options *)

Lemma unique_NoDup (l : list string) : NoDup (unique l).
Proof.
  induction l as [|a t IH]; simpl; constructor.
  - intros H. apply filter_In in H. destruct H as [_ H].
    rewrite String.eqb_refl in H. discriminate.
  - now apply NoDup_filter.
Qed.

(** The options offered for regions and categories (lines 79-80, 87-88)
    list each value present in the dataset once, and nothing else. *)
Theorem multiselect_options_distinct_and_complete (df : DataFrame) :
  NoDup (region_options df)
  /\ NoDup (category_options df)
  /\ (forall s, In s (region_options df) <-> exists r, In r df /\ Wilayah r = s)
  /\ (forall s, In s (category_options df)
                <-> exists r, In r df /\ Kategori r = s).
Proof.
  unfold region_options, category_options.
  split; [apply unique_NoDup|]. split; [apply unique_NoDup|].
  split; intros s; split.
  - intros H. apply unique_sound, in_map_iff in H.
    destruct H as [r [E Hr]]. eauto.
  - intros [r [Hr <-]]. now apply unique_complete, in_map.
  - intros H. apply unique_sound, in_map_iff in H.
    destruct H as [r [E Hr]]. eauto.
  - intros [r [Hr <-]]. now apply unique_complete, in_map.
Qed.

(** ** The filter as one pass over the rows *)

Lemma filter_fuse {A : Type} (f g : A -> bool) (l : list A) :
  filter f (filter g l) = filter (fun x => g x && f x) l.
Proof.
  induction l as [|a t IH]; simpl; [reflexivity|].
  destruct (g a); simpl; [destruct (f a)|]; now rewrite IH.
Qed.

Lemma filter_date_as_filter (df : DataFrame) (dr : list date) :
  filter_date df dr = filter (in_date_range dr) df.
Proof.
  unfold filter_date, in_date_range.
  destruct dr as [|d0 [|d1 [|d2 rest]]]; try reflexivity;
    symmetry; now apply filter_all_true.
Qed.

Lemma filtered_df_as_filter (df : DataFrame) (dr : list date)
    (rs cs : list string) :
  filtered_df df dr rs cs = filter (row_selected dr rs cs) df.
Proof.
  unfold filtered_df, filter_categories, filter_regions, row_selected.
  rewrite filter_date_as_filter, !filter_fuse.
  apply filter_ext. intros r.
  destruct (in_date_range dr r), (isin (Wilayah r) rs),
    (isin (Kategori r) cs); reflexivity.
Qed.

(** Lines 66-90 amount to one pass that keeps, in their order, the rows
    meeting the three conditions together; the three steps can be taken in
    any order, and filtering the result again changes nothing. *)
Theorem filter_steps_commute (df : DataFrame) (dr : list date)
    (rs cs : list string) :
  filtered_df df dr rs cs = filter (row_selected dr rs cs) df
  /\ filtered_df df dr rs cs
     = filter_regions rs (filter_categories cs (filter_date df dr))
  /\ filtered_df df dr rs cs
     = filter_date (filter_categories cs (filter_regions rs df)) dr
  /\ filtered_df (filtered_df df dr rs cs) dr rs cs = filtered_df df dr rs cs.
Proof.
  split; [apply filtered_df_as_filter|].
  split; [|split].
  - rewrite filtered_df_as_filter.
    unfold filter_regions, filter_categories, row_selected.
    rewrite filter_date_as_filter, !filter_fuse.
    apply filter_ext. intros r.
    destruct (in_date_range dr r), (isin (Wilayah r) rs),
      (isin (Kategori r) cs); reflexivity.
  - rewrite filtered_df_as_filter, filter_date_as_filter.
    unfold filter_regions, filter_categories, row_selected.
    rewrite !filter_fuse.
    apply filter_ext. intros r.
    destruct (in_date_range dr r), (isin (Wilayah r) rs),
      (isin (Kategori r) cs); reflexivity.
  - rewrite !filtered_df_as_filter, filter_fuse.
    apply filter_ext. intros r. now destruct (row_selected dr rs cs r).
Qed.

Lemma to_datetime_le (a b : date) :
  toordinal a <= toordinal b -> to_datetime a <= to_datetime b.
Proof.
  unfold to_datetime. intros H.
  apply Z.mul_le_mono_nonneg_r; [pose proof NS_PER_DAY_pos|]; lia.
Qed.

Lemma to_datetime_lt (a b : date) :
  toordinal a < toordinal b -> to_datetime a < to_datetime b.
Proof.
  unfold to_datetime. intros H.
  apply Z.mul_lt_mono_pos_r; [apply NS_PER_DAY_pos | lia].
Qed.

(** A wider date range and larger selections keep every row that was kept
    (lines 69-70, 82, 90). *)
Theorem wider_selection_keeps_rows (df : DataFrame) (a b a' b' : date)
    (rs rs' cs cs' : list string) (r : SaleRecord) :
  toordinal a' <= toordinal a ->
  toordinal b <= toordinal b' ->
  incl rs rs' ->
  incl cs cs' ->
  In r (filtered_df df [a; b] rs cs) ->
  In r (filtered_df df [a'; b'] rs' cs').
Proof.
  intros Ha Hb Hrs Hcs. rewrite !filtered_df_range.
  intros (Hin & [Hlo Hhi] & Hr & Hc).
  pose proof (to_datetime_le _ _ Ha). pose proof (to_datetime_le _ _ Hb).
  repeat split; try assumption; try lia; auto.
Qed.

Lemma wider_selection_keeps_rows_witness :
  In (nth 2 sample_sales free_order)
     (filtered_df sample_sales [mkDate 2023 1 1; mkDate 2024 12 31]
        ["Jakarta"; "Bandung"] ["Pakaian"; "Elektronik"]).
Proof.
  apply (wider_selection_keeps_rows sample_sales
           (mkDate 2024 1 1) (mkDate 2024 1 31)
           (mkDate 2023 1 1) (mkDate 2024 12 31)
           ["Jakarta"; "Bandung"] ["Jakarta"; "Bandung"]
           ["Pakaian"] ["Pakaian"; "Elektronik"]).
  - vm_compute. discriminate.
  - vm_compute. discriminate.
  - apply incl_refl.
  - intros x [<-|[]]. now left.
  - vm_compute. now left.
Defined.

Lemma filter_all_false {A : Type} (f : A -> bool) (l : list A) :
  (forall x, In x l -> f x = false) -> filter f l = [].
Proof.
  induction l as [|a t IH]; simpl; intros H; [reflexivity|].
  rewrite (H a (or_introl eq_refl)). apply IH. auto.
Qed.

(** A range whose end day is before its start day keeps no row
    (lines 69-70). *)
Theorem inverted_range_keeps_nothing (df : DataFrame) (a b : date)
    (rs cs : list string) :
  toordinal b < toordinal a -> filtered_df df [a; b] rs cs = [].
Proof.
  intros H. rewrite filtered_df_as_filter. apply filter_all_false.
  intros r _. unfold row_selected, in_date_range, date_mask.
  pose proof (to_datetime_lt _ _ H).
  destruct (to_datetime a <=? Tanggal_Pesanan r) eqn:E1;
    destruct (Tanggal_Pesanan r <=? to_datetime b) eqn:E2;
    try reflexivity.
  apply Z.leb_le in E1, E2. lia.
Qed.

Lemma inverted_range_keeps_nothing_witness :
  filtered_df sample_sales [mkDate 2024 3 5; mkDate 2023 11 20]
              ["Jakarta"; "Bandung"] ["Pakaian"; "Elektronik"] = [].
Proof.
  apply (inverted_range_keeps_nothing sample_sales).
  vm_compute. reflexivity.
Defined.

(** ** The span of the data *)

Lemma fold_min_le (ts : list Z) (t0 : Z) :
  fold_left Z.min ts t0 <= t0
  /\ forall x, In x ts -> fold_left Z.min ts t0 <= x.
Proof.
  revert t0. induction ts as [|a t IH]; intros t0; simpl.
  - split; [lia | tauto].
  - destruct (IH (Z.min t0 a)) as [H1 H2]. split; [lia|].
    intros x [<-|Hx]; [lia | auto].
Qed.

Lemma fold_max_ge (ts : list Z) (t0 : Z) :
  t0 <= fold_left Z.max ts t0
  /\ forall x, In x ts -> x <= fold_left Z.max ts t0.
Proof.
  revert t0. induction ts as [|a t IH]; intros t0; simpl.
  - split; [lia | tauto].
  - destruct (IH (Z.max t0 a)) as [H1 H2]. split; [lia|].
    intros x [<-|Hx]; [lia | auto].
Qed.

Lemma ts_min_max_bound (df : DataFrame) (r : SaleRecord) :
  In r df -> ts_min df <= Tanggal_Pesanan r <= ts_max df.
Proof.
  intros Hin. apply (in_map Tanggal_Pesanan) in Hin.
  unfold ts_min, ts_max.
  destruct (map Tanggal_Pesanan df) as [|t0 ts]; [destruct Hin|].
  destruct (fold_min_le ts t0) as [A1 A2].
  destruct (fold_max_ge ts t0) as [B1 B2].
  destruct Hin as [<-|Hin]; [lia|].
  split; [now apply A2 | now apply B2].
Qed.

Lemma ts_ordinal_mono (s t : Timestamp) :
  s <= t -> ts_ordinal s <= ts_ordinal t.
Proof.
  unfold ts_ordinal. intros H.
  pose proof (Z.div_le_mono s t NS_PER_DAY NS_PER_DAY_pos H). lia.
Qed.

(** On data without times of day, a range that starts on or before the
    first day of the data and ends on or after its last day keeps every
    row (lines 55-56 and 66-70). *)
Theorem covering_range_keeps_date_only_rows (df : DataFrame) (a b : date) :
  (forall x, In x df -> Tanggal_Pesanan x mod NS_PER_DAY = 0) ->
  toordinal a <= ts_ordinal (ts_min df) ->
  ts_ordinal (ts_max df) <= toordinal b ->
  filter_date df [a; b] = df.
Proof.
  intros Hmid Ha Hb. unfold filter_date. apply filter_all_true.
  intros r Hr. unfold date_mask.
  destruct (ts_min_max_bound df r Hr) as [Hlo Hhi].
  apply andb_true_iff. rewrite !Z.leb_le. split.
  - apply start_midnight_le.
    pose proof (ts_ordinal_mono _ _ Hlo). lia.
  - apply (end_midnight_ge b _ (Hmid r Hr)).
    pose proof (ts_ordinal_mono _ _ Hhi). lia.
Qed.

Lemma covering_range_keeps_date_only_rows_witness :
  filter_date sample_sales [min_date sample_sales; max_date sample_sales]
  = sample_sales.
Proof.
  apply (covering_range_keeps_date_only_rows sample_sales
           (min_date sample_sales) (max_date sample_sales)).
  - intros x [<-|[<-|[<-|[]]]]; reflexivity.
  - vm_compute. discriminate.
  - vm_compute. discriminate.
Defined.

(** ** Filtering and the summary metrics *)






(** ** Selections and the tables drawn from them *)

(** Every region shown in the region table was selected and occurs in the
    dataset, and likewise for the category table (lines 82, 90, 186,
    239-243). *)
Theorem chart_keys_within_selection (df : DataFrame) (dr : list date)
    (rs cs : list string) (k : string) :
  (In k (map fst (sales_by_region (filtered_df df dr rs cs))) ->
   In k rs /\ In k (region_options df))
  /\ (In k (map fst (sales_by_category (filtered_df df dr rs cs))) ->
      In k cs /\ In k (category_options df)).
Proof.
  unfold sales_by_region, sales_by_category, region_options, category_options.
  split; intros H; apply groupby_sum_keys in H; destruct H as [r [Hr <-]];
    rewrite filtered_df_as_filter in Hr; apply filter_In in Hr;
    destruct Hr as [Hin Hsel]; unfold row_selected in Hsel;
    apply andb_true_iff in Hsel; destruct Hsel as [Hsel Hc];
    apply andb_true_iff in Hsel; destruct Hsel as [_ Hreg];
    apply isin_true_iff in Hc, Hreg.
  - split; [assumption | now apply unique_complete, in_map].
  - split; [assumption | now apply unique_complete, in_map].
Qed.

Lemma chart_keys_within_selection_witness :
  In "Jakarta" ["Jakarta"] /\ In "Jakarta" (region_options sample_sales).
Proof.
  apply (chart_keys_within_selection sample_sales [] ["Jakarta"] ["Pakaian"]
           "Jakarta").
  vm_compute. now left.
Defined.

(** ** One row per group *)

Lemma upsert_adds_key (k : string) (v : Q) (acc : Series) :
  In k (map fst (upsert k v acc)).
Proof.
  induction acc as [|[k' v'] t IH]; simpl; [now left|].
  destruct (String.compare k k') eqn:E; simpl.
  - apply String.compare_eq_iff in E. now left.
  - now left.
  - now right.
Qed.

Lemma upsert_keeps_keys (k k0 : string) (v : Q) (acc : Series) :
  In k (map fst acc) -> In k (map fst (upsert k0 v acc)).
Proof.
  induction acc as [|[k' v'] t IH]; simpl; [tauto|].
  destruct (String.compare k0 k') eqn:E; simpl.
  - tauto.
  - intros H. now right.
  - intros [H|H]; [now left | right; auto].
Qed.

Lemma fold_upsert_keeps_keys (key : SaleRecord -> string) (df : DataFrame)
    (acc : Series) (k : string) :
  In k (map fst acc) ->
  In k (map fst
          (fold_left (fun a r => upsert (key r) (Total_Penjualan r) a) df acc)).
Proof.
  revert acc. induction df as [|r t IH]; intros acc H; simpl; [assumption|].
  apply IH. now apply upsert_keeps_keys.
Qed.

Lemma groupby_sum_has_key (key : SaleRecord -> string) (df : DataFrame)
    (r : SaleRecord) :
  In r df -> In (key r) (map fst (groupby_sum key df)).
Proof.
  unfold groupby_sum. generalize (@nil (string * Q)).
  induction df as [|a t IH]; intros acc Hin; [destruct Hin|].
  simpl. destruct Hin as [->|Hin].
  - apply fold_upsert_keeps_keys, upsert_adds_key.
  - now apply IH.
Qed.

Lemma strongly_sorted_NoDup (l : list string) :
  StronglySorted key_lt l -> NoDup l.
Proof.
  induction 1 as [|a t Hs IH Hall]; constructor; [|assumption].
  intros Hin. rewrite Forall_forall in Hall.
  apply (key_lt_irrefl a). now apply Hall.
Qed.

(** A grouped table (lines 127, 161, 186, 215-219, 239-243) has one row for
    each key value present in the rows and no other, in ascending order of
    the key, and each row holds the sum of the amounts of the rows of its
    key. *)
Theorem groupby_sum_one_row_per_key (key : SaleRecord -> string)
    (df : DataFrame) :
  StronglySorted key_lt (map fst (groupby_sum key df))
  /\ NoDup (map fst (groupby_sum key df))
  /\ (forall k, In k (map fst (groupby_sum key df))
                <-> exists r, In r df /\ key r = k)
  /\ (forall k v, In (k, v) (groupby_sum key df) ->
        (v == sum_Q (map Total_Penjualan
                       (filter (fun r => String.eqb (key r) k) df)))%Q).
Proof.
  split; [apply groupby_sum_sorted|].
  split; [apply strongly_sorted_NoDup, groupby_sum_sorted|].
  split.
  - intros k. split; [apply groupby_sum_keys|].
    intros [r [Hr <-]]. now apply groupby_sum_has_key.
  - intros k v. apply groupby_sum_entry.
Qed.

(** ** Few products *)



(** ** The average on a rendered page *)

Lemma total_orders_pos (df : DataFrame) : df <> [] -> 0 < total_orders df.
Proof.
  destruct df as [|r t]; [congruence|]. intros _.
  unfold total_orders. simpl. lia.
Qed.

Lemma avg_order_value_nonempty (df : DataFrame) :
  df <> [] ->
  avg_order_value df
  = Some (total_sales df / inject_Z (total_orders df))%Q.
Proof.
  intros H. pose proof (total_orders_pos df H) as Hp.
  unfold avg_order_value, true_div.
  destruct (0 <? total_orders df) eqn:E1; [|apply Z.ltb_ge in E1; lia].
  destruct (total_orders df =? 0) eqn:E2; [apply Z.eqb_eq in E2; lia|].
  reflexivity.
Qed.



(** ** Rows of the monthly table *)

Lemma traverse_some_all {A B : Type} (f : A -> option B) (l : list A)
    (ys : list B) :
  traverse f l = Some ys -> forall x, In x l -> f x <> None.
Proof.
  revert ys. induction l as [|a t IH]; simpl; intros ys H x Hx; [tauto|].
  destruct (f a) eqn:Ea; [|discriminate].
  destruct (traverse f t) as [ys'|] eqn:Et; [|discriminate].
  destruct Hx as [<-|Hx]; [congruence | now apply (IH ys')].
Qed.


Lemma sales_by_month_some_rows (parse : string -> option Timestamp)
    (df : DataFrame) (t : Series) :
  sales_by_month parse df = Some t ->
  t = render_rows
        (sort_values_period (month_rows parse (groupby_sum Bulan df))).
Proof.
  intros H.
  assert (Hp : forall r, In r df -> parse (Bulan r) <> None).
  { intros r Hr. unfold sales_by_month in H.
    destruct (traverse parse (map fst (groupby_sum Bulan df))) as [stamps|]
      eqn:E; [|discriminate].
    apply (traverse_some_all _ _ _ E). now apply groupby_sum_has_key. }
  rewrite (sales_by_month_total parse df Hp) in H. now inversion H.
Qed.

(** The monthly table has one row per distinct label of the filtered rows,
    each carrying the total of its label under the display string of the
    month the label parses to; labels are grouped as text before they are
    parsed, so two labels of one month give two rows (lines 127-131). *)
Theorem sales_by_month_one_row_per_label
    (parse : string -> option Timestamp) (df : DataFrame) (t : Series) :
  sales_by_month parse df = Some t ->
  List.length t = List.length (groupby_sum Bulan df)
  /\ forall label v, In (label, v) t ->
       exists k stamp,
         In (k, v) (groupby_sum Bulan df)
         /\ parse k = Some stamp
         /\ label = period_str (to_period_M stamp).
Proof.
  intros H.
  assert (Hk : forall k, In k (map fst (groupby_sum Bulan df)) ->
                         parse k <> None).
  { unfold sales_by_month in H.
    destruct (traverse parse (map fst (groupby_sum Bulan df))) as [stamps|]
      eqn:E; [|discriminate].
    apply (traverse_some_all _ _ _ E). }
  rewrite (sales_by_month_some_rows parse df t H).
  unfold render_rows, month_rows. split.
  - rewrite length_map, (Permutation_length (sort_values_period_perm _)).
    apply length_map.
  - intros label v Hin.
    apply in_map_iff in Hin. destruct Hin as [[p v'] [E Hin]].
    simpl in E. inversion E; subst.
    apply (Permutation_in _ (sort_values_period_perm _)) in Hin.
    apply in_map_iff in Hin. destruct Hin as [[k v0] [E' Hin]].
    simpl in E'. inversion E'; subst.
    unfold period_of_label.
    destruct (parse k) as [stamp|] eqn:Ep.
    + exists k, stamp. auto.
    + exfalso. apply (Hk k); [|assumption].
      change k with (fst (k, v)). now apply in_map.
Qed.

Lemma sales_by_month_one_row_per_label_witness :
  List.length [("2024-01", 72%Q); ("2024-01", 100%Q)]
  = List.length (groupby_sum Bulan mixed_label_sales)
  /\ forall label v, In (label, v) [("2024-01", 72%Q); ("2024-01", 100%Q)] ->
       exists k stamp,
         In (k, v) (groupby_sum Bulan mixed_label_sales)
         /\ parse_month_label k = Some stamp
         /\ label = period_str (to_period_M stamp).
Proof.
  apply (sales_by_month_one_row_per_label parse_month_label
           mixed_label_sales).
  reflexivity.
Defined.

(** ** The assembled row and the feature names *)

Lemma lookup_label_nth (cols : list string) (vals : list cell) (i : nat)
    (name : string) :
  NoDup cols ->
  List.length cols = List.length vals ->
  nth_error cols i = Some name ->
  lookup_label name cols vals = nth_error vals i.
Proof.
  revert vals i. induction cols as [|c cs IH]; intros [|v vs] i Hnd Hlen Hn;
    try (destruct i; discriminate).
  inversion Hnd as [|? ? Hnot Hnd']; subst. simpl in Hlen.
  destruct i as [|i]; simpl in *.
  - inversion Hn; subst. now rewrite String.eqb_refl.
  - destruct (String.eqb name c) eqn:E.
    + apply String.eqb_eq in E. subst c.
      exfalso. apply Hnot. now apply nth_error_In with i.
    + apply IH; [assumption | congruence | assumption].
Qed.

(** The row is assembled exactly when the model lists six feature names;
    any other count makes the frame constructor raise.  With six distinct
    names, the value found under the i-th name is the i-th value written at
    lines 325-330, whatever the names are. *)
Theorem input_for_prediction_by_feature_count
    (features : list string) (w : Widgets) :
  (List.length features = 6%nat ->
   input_for_prediction features w
   = inr (mkFrame features [positional_row w]))
  /\ (List.length features <> 6%nat ->
      exists e, input_for_prediction features w = inl e)
  /\ (NoDup features ->
      forall frame i name,
        input_for_prediction features w = inr frame ->
        nth_error features i = Some name ->
        frame_get frame 0 name = nth_error (positional_row w) i).
Proof.
  split; [apply input_for_prediction_six|].
  split.
  - intros Hne. unfold input_for_prediction, pd_DataFrame. simpl.
    destruct (List.length features) as [|[|[|[|[|[|[|n]]]]]]] eqn:E; simpl;
      try (eexists; reflexivity).
    congruence.
  - intros Hnd frame i name Hf Hn.
    unfold input_for_prediction, pd_DataFrame in Hf. simpl in Hf.
    destruct (List.length features) as [|[|[|[|[|[|[|n]]]]]]] eqn:E;
      simpl in Hf; try discriminate.
    inversion Hf; subst. unfold frame_get. simpl.
    now apply lookup_label_nth.
Qed.

Lemma input_for_prediction_by_feature_count_witness :
  frame_get (mkFrame swapped_features [positional_row prediction_widgets])
            0 "d"
  = nth_error (positional_row prediction_widgets) 1.
Proof.
  destruct (input_for_prediction_by_feature_count swapped_features
              prediction_widgets) as (_ & _ & H).
  apply H.
  - unfold swapped_features.
    repeat (constructor; [simpl; intros F;
                          repeat (destruct F as [F|F]; [discriminate F|]);
                          exact F|]).
    constructor.
  - reflexivity.
  - reflexivity.
Defined.

(** ** Runs of the Overview page *)

Section Runs.

Variable parse : string -> option Timestamp.
Variable predict : Frame -> string + list Q.
Variable features : list string.


Lemma empty_guard_passes (w : Widgets) (filtered : DataFrame) :
  filtered <> [] -> empty_guard w filtered = ret tt.
Proof.
  intros H. unfold empty_guard.
  destruct (pilihan_halaman w); [|reflexivity].
  destruct filtered; [congruence | reflexivity].
Qed.


(** With rows left and month labels that parse, the Overview page runs to
    its end and draws, in this order, the four metrics, the five charts and
    the two tables, each from the filtered frame, with no warning and no
    error (lines 103-285). *)
Theorem overview_renders_every_section (df : DataFrame) (w : Widgets) :
  let filtered :=
    filtered_df df (date_range w) (selected_regions w)
                (selected_categories w) in
  pilihan_halaman w = Overview_Dashboard ->
  filtered <> [] ->
  (forall r, In r filtered -> parse (Bulan r) <> None) ->
  result (script_run parse predict features df w) = Ret tt
  /\ filter is_rendering (trace (script_run parse predict features df w))
     = overview_metrics filtered
       ++ overview_charts w filtered
            (render_rows
               (sort_values_period
                  (month_rows parse (groupby_sum Bulan filtered))))
  /\ filter (fun ev => is_warning ev || is_error ev)
       (trace (script_run parse predict features df w)) = [].
Proof.
  intros filtered Hp Hne Hparse.
  unfold script_run, select_data. rewrite Hp.
  fold filtered.
  cbn [bind emit ret page_head].
  rewrite (empty_guard_passes w filtered Hne).
  unfold overview_page.
  rewrite (avg_order_value_nonempty filtered Hne).
  rewrite (sales_by_month_total parse filtered Hparse).
  repeat split.
Qed.


(** ** Runs of the prediction page *)

(** The prediction page never ends by [st.stop], shows no warning, metric,
    chart or table, whatever the dataset and the filter widgets hold, and
    calls the estimator at most once; without the button pressed it shows
    the form and the foot only (lines 91-98, 288-349). *)
Theorem prediction_page_run (df : DataFrame) (w : Widgets) :
  pilihan_halaman w = Prediksi_Penjualan ->
  result (script_run parse predict features df w) <> Stop
  /\ filter (fun ev => is_warning ev || is_rendering ev)
       (trace (script_run parse predict features df w)) = []
  /\ (List.length
        (filter is_call_predict
           (trace (script_run parse predict features df w))) <= 1)%nat
  /\ (button w = false ->
      script_run parse predict features df w
      = (head_events ++ prediction_form_events ++ foot_events, Ret tt)).
Proof.
  intros Hp.
  unfold script_run, select_data, empty_guard, prediction_page.
  rewrite Hp.
  destruct (button w).
  - destruct (input_for_prediction features w) as [e|frame].
    + cbn. repeat split; try discriminate; try lia.
    + unfold predict_and_show.
      cbn -[prediction_error_text].
      destruct (predict frame) as [e|[|v arr]];
        cbn -[prediction_error_text];
        repeat split; try discriminate; try lia.
  - cbn. repeat split; try discriminate; try lia.
Qed.

(** The caption at the foot of the page is shown exactly when the run ends
    normally: not after [st.stop], and not after an exception that leaves
    the script (lines 96-98, 352-353). *)
Theorem caption_shown_iff_normal_end (df : DataFrame) (w : Widgets) :
  existsb is_caption (trace (script_run parse predict features df w)) = true
  <-> result (script_run parse predict features df w) = Ret tt.
Proof.
  unfold script_run, select_data.
  destruct (pilihan_halaman w) eqn:Hp.
  - remember (filtered_df df (date_range w) (selected_regions w)
                          (selected_categories w)) as filtered eqn:Ef.
    cbn [bind emit ret page_head].
    destruct filtered as [|r0 rest].
    + unfold empty_guard. rewrite Hp. cbn. split; discriminate.
    + rewrite (empty_guard_passes w (r0 :: rest)) by discriminate.
      unfold overview_page.
      rewrite (avg_order_value_nonempty (r0 :: rest)) by discriminate.
      destruct (sales_by_month parse (r0 :: rest)) as [m|].
      * split; reflexivity.
      * split; discriminate.
  - unfold empty_guard, prediction_page. rewrite Hp.
    destruct (button w).
    + destruct (input_for_prediction features w) as [e|frame].
      * cbn. split; discriminate.
      * unfold predict_and_show. cbn -[prediction_error_text].
        destruct (predict frame) as [e|[|v arr]];
          cbn -[prediction_error_text]; split; reflexivity.
    + cbn. split; reflexivity.
Qed.

End Runs.


Lemma overview_renders_every_section_witness :
  result (script_run parse_month_label price_times_quantity six_features
                     sample_sales all_regions_widgets) = Ret tt
  /\ filter is_rendering
       (trace (script_run parse_month_label price_times_quantity six_features
                          sample_sales all_regions_widgets))
     = overview_metrics sample_sales
       ++ overview_charts all_regions_widgets sample_sales
            [("2023-11", 72%Q); ("2024-01", 50%Q); ("2024-03", 100%Q)].
Proof.
  destruct (overview_renders_every_section parse_month_label
              price_times_quantity six_features sample_sales
              all_regions_widgets) as (H1 & H2 & _).
  - reflexivity.
  - discriminate.
  - intros r [<-|[<-|[<-|[]]]]; vm_compute; discriminate.
  - split; [exact H1 | exact H2].
Defined.


Lemma prediction_page_run_witness :
  result (script_run no_month_parser broken_estimator six_features []
                     prediction_widgets) <> Stop
  /\ (List.length
        (filter is_call_predict
           (trace (script_run no_month_parser broken_estimator six_features
                              [] prediction_widgets))) <= 1)%nat.
Proof.
  destruct (prediction_page_run no_month_parser broken_estimator six_features
              [] prediction_widgets) as (H1 & _ & H3 & _).
  - reflexivity.
  - split; [exact H1 | exact H3].
Defined.

Lemma filtered_df_closed_interval_date_only_witness :
  In (nth 2 sample_sales free_order)
     (filtered_df sample_sales [mkDate 2024 1 9; mkDate 2024 1 9]
        ["Jakarta"] ["Pakaian"])
  <-> In (nth 2 sample_sales free_order) sample_sales
      /\ toordinal (mkDate 2024 1 9)
         <= ts_ordinal (Tanggal_Pesanan (nth 2 sample_sales free_order))
         <= toordinal (mkDate 2024 1 9)
      /\ In (Wilayah (nth 2 sample_sales free_order)) ["Jakarta"]
      /\ In (Kategori (nth 2 sample_sales free_order)) ["Pakaian"].
Proof.
  apply (filtered_df_closed_interval_date_only sample_sales).
  intros x [<-|[<-|[<-|[]]]]; reflexivity.
Defined.
